(** * ubuntu.com front end: the purchase modal and the bundler entry map

    A shallow embedding of
    - [PurchaseModal] (the checkout controller, a React function component):
      its two pieces of component state, the [useEffect] on [userInfo], the
      Formik [onSubmit] handler and the [onSuccess] / [onError] callbacks it
      hands to the payment-method mutation;
    - [webpack.config.entry.js] (the object assigned to [module.exports]).

    JavaScript values are embedded as a small untyped value type; the
    component's state, the query cache, [window.accountId] and Formik's
    submitting flag are fields of one record that every handler transforms,
    and every call the component makes is appended to a chronological trace. *)

From Stdlib Require Import ZArith List Bool Ascii String.
From stdpp Require Import base option list strings gmap.

Open Scope string_scope.
Open Scope list_scope.
Open Scope Z_scope.

Set Warnings "-register-all".

(** ** JavaScript values *)

Module Js.

(** Values of type [any]: [product], [preview], [userInfo], the data kept in
    the query cache and the right-hand sides of [module.exports].  Numbers
    are the integral ones. *)
Inductive Value : Type :=
| Undefined
| Null
| Boolean (b : bool)
| Number (n : Z)
| Str (s : string)
| Arr (items : list Value)
| Obj (fields : list (string * Value)).

(** First binding of [k] in an object literal's field list. *)
Fixpoint assoc (k : string) (fields : list (string * Value)) : option Value :=
  match fields with
  | [] => None
  | (k', v) :: rest => if String.eqb k k' then Some v else assoc k rest
  end.

(** [v?.k]: short-circuits to [undefined] on [null] and [undefined];
    a missing property reads as [undefined]. *)
Definition optGet (v : Value) (k : string) : Value :=
  match v with
  | Obj fields => default Undefined (assoc k fields)
  | _ => Undefined
  end.

(** ToBoolean. *)
Definition truthy (v : Value) : bool :=
  match v with
  | Undefined | Null => false
  | Boolean b => b
  | Number n => negb (n =? 0)
  | Str s => negb (String.eqb s EmptyString)
  | Arr _ | Obj _ => true
  end.

End Js.

Infix "?." := Js.optGet (at level 8, left associativity).

(** ** The bundler entry map: webpack.config.entry.js *)

Module EntryMap.

Import Js.

(** The object literal assigned to [module.exports], property by property in
    source order. *)
Definition module_exports : Value :=
  Obj
    [ ("contributions", Str "./static/js/src/contributions.js");
      ("desktop-statistics", Str "./static/js/src/desktop-statistics.js");
      ("tutorials",
        Arr [ Str "./static/js/src/tutorial-list.js";
              Str "./static/js/src/tutorial.js" ]);
      ("forms", Str "./static/js/src/forms.js");
      ("image-download", Str "./static/js/src/image-download.js");
      ("main",
        Arr [ Str "url-polyfill";
              Str "url-search-params-polyfill";
              Str "./static/js/src/polyfills.js";
              Str "./static/js/src/contextual-menu.js";
              Str "./static/js/src/dynamic-contact-form.js";
              Str "./static/js/src/core.js";
              Str "./static/js/src/navigation.js";
              Str "./static/js/src/form-validation.js";
              Str "./static/js/src/scratch.js" ]);
      ("release-chart", Str "./static/js/src/release-chart.js");
      ("tabotronic", Str "./static/js/src/tabotronic.js");
      ("appliance", Str "./static/js/src/appliance.js");
      ("tco-calculator", Str "./static/js/src/tco-calculator.js");
      ("ua-payment-modal", Str "./static/js/src/ua-payment-modal.js");
      ("sticky-nav", Str "./static/js/src/sticky-nav.js");
      ("imageBuilder", Str "./static/js/src/imageBuilder.js");
      ("cve", Str "./static/js/src/cve/cve.js") ].

(** The entries of the map: the own properties of [module.exports]. *)
Definition entries : list (string * Value) :=
  match module_exports with
  | Obj fields => fields
  | _ => []
  end.

(** [s] ends with [suffix]. *)
Definition ends_with (suffix s : string) : bool :=
  let n := String.length s in
  let m := String.length suffix in
  (m <=? n)%nat && String.eqb (String.substring (n - m) m s) suffix.

(** A request the bundler resolves as a path to a file: it starts with
    [./] (relative to the project).  Anything else is a bare module name,
    looked up in the installed packages. *)
Definition is_relative_path (s : string) : bool := String.prefix "./" s.

(** A path to a JavaScript source file of the project. *)
Definition is_source_file_path (s : string) : bool :=
  String.prefix "./static/js/src/" s && ends_with ".js" s.

(** A bare module name: a non-empty string with no path separator. *)
Definition is_package_name (s : string) : bool :=
  negb (String.eqb s EmptyString)
  && forallb (fun c => negb (Ascii.eqb c "/"%char)) (String.list_ascii_of_string s).

Definition str_with (p : string -> bool) (v : Value) : bool :=
  match v with
  | Str s => p s
  | _ => false
  end.

(** One string satisfying [p], or a non-empty array of such strings. *)
Definition one_or_list_of (p : string -> bool) (v : Value) : bool :=
  match v with
  | Str s => p s
  | Arr (_ :: _ as items) => forallb (str_with p) items
  | _ => false
  end.

(** The claim's shape for an entry value: one source file path or a list of
    source file paths. *)
Definition path_or_paths : Value -> bool := one_or_list_of is_source_file_path.

(** What the file has: one request or a list of requests, each either a
    source file path or a package name. *)
Definition request_or_requests : Value -> bool :=
  one_or_list_of (fun s => is_source_file_path s || is_package_name s).

(** The strings an entry value lists. *)
Definition requests (v : Value) : list string :=
  match v with
  | Str s => [s]
  | Arr items => omap (fun i => match i with Str s => Some s | _ => None end) items
  | _ => []
  end.

End EntryMap.


(** ** React nodes: what [setError] receives and the step components show *)

Module React.

(** [React.ReactNode]: [null], [undefined], booleans, numbers, text, elements
    and fragments.  An element carries its tag, its string attributes and its
    children. *)
Inductive Node : Type :=
| NNull
| NUndefined
| NBool (b : bool)
| NNum (n : Z)
| NText (s : string)
| NElement (tag : string) (attrs : list (string * string)) (children : list Node)
| NFragment (children : list Node).

(** ToBoolean, as [if (knownErrorMessage)] applies it. *)
Definition truthy (n : Node) : bool :=
  match n with
  | NNull | NUndefined => false
  | NBool b => b
  | NNum n => negb (n =? 0)
  | NText s => negb (String.eqb s EmptyString)
  | NElement _ _ _ | NFragment _ => true
  end.

End React.

(** ** The purchase modal *)

Module PurchaseModal.

Import Js React.

(** The argument [getErrorMessage] takes. *)
Record ErrorArg : Type := { message : string; code : string }.

(** What the mutation rejects with: a value that is [instanceof Error] (only
    its [message] is read), or any other value. *)
Inductive Rejection : Type :=
| ErrorInstance (msg : string)
| NotAnError (v : Value).

(** [x / 100], kept as the unevaluated quotient of a JavaScript value. *)
Inductive Quotient : Type := Div (dividend : Value) (divisor : Z).

(** [GAFriendlyProduct]. *)
Record GAProduct : Type :=
  { ga_id : Value; ga_name : Value; ga_price : Quotient; ga_quantity : Z }.

(** An entry of the query client's cache. *)
Record Query : Type := { data : Value; isInvalidated : bool }.

Definition invalidated (q : Query) : Query :=
  {| data := data q; isInvalidated := true |}.

(** The two messages [onError] builds itself (JSX text is trimmed and joined
    the way the JSX transform does it). *)
Definition signInMessage : Node :=
  NFragment
    [ NText "An Ubuntu One account with this email address exists. Please";
      NText " ";
      NElement "a" [("href", "/login")] [NText "sign in"];
      NText " to your account first." ].

Definition unknownErrorMessage : Node :=
  NFragment
    [ NText "Sorry, there was an unknown error with your credit card. Check the details and try again. Contact";
      NText " ";
      NElement "a" [("href", "https://ubuntu.com/contact-us")] [NText "Canonical sales"];
      NText " ";
      NText "if the problem persists." ].

(** A response, a user-info builder and an error classifier to run the
    controller with.  The classifier knows two card error codes. *)
Definition sample_accountId (d : Value) : Value := d ?. "accountId".

Definition sample_getUserInfoFromVariables (d : Value) (email : string) : Value :=
  Obj [ ("accountId", d ?. "accountId");
        ("customerInfo", Obj [ ("email", Str email);
                               ("defaultPaymentMethod", d ?. "paymentMethod") ]) ].

Definition sample_getErrorMessage (a : ErrorArg) : Node :=
  if String.eqb (code a) "card_declined" then NText "Your card was declined."
  else if String.eqb (code a) "expired_card" then NText "Your card has expired."
  else NUndefined.

Declare Scope cmd_scope.
Delimit Scope cmd_scope with cmd.

Section Controller.

(** Types declared in [./utils/utils] and by the mutation hook. *)
Context {FormValues Marketplace Response : Type}.

(** [data.accountId]. *)
Variable accountId : Response -> Value.

(** Helpers imported from [./utils/utils] and [../advantage/error-handler]. *)
Variable getUserInfoFromVariables : Response -> FormValues -> Value.
Variable getInitialFormValues : Value -> Value -> FormValues.
Variable getErrorMessage : ErrorArg -> Node.

(** The props the handlers read. *)
Variable product : Value.
Variable quantity : Z.
Variable marketplace : Marketplace.

(** The variables of one [mutate] call. *)
Record MutationVariables : Type :=
  { formData : FormValues; var_marketplace : Marketplace }.

(** How a mutation settles. *)
Inductive Outcome : Type :=
| Success (d : Response)
| Failure (e : Rejection).

(** The calls the component makes, as entries of the trace. *)
Inductive Call : Type :=
| CallSetError (n : Node)
| CallSetStep (n : Z)
| CallCheckoutEvent (p : GAProduct) (label : string)
| CallMutate (vars : MutationVariables)
| AssignWindowAccountId (v : Value)
| CallSetQueryData (key : string) (v : Value)
| CallInvalidateQueries (key : string)
| CallCaptureException (e : Rejection)
| CallSetSubmitting (b : bool).

(** Everything the handlers read or write. *)
Record World : Type := mkWorld
  { error : Node;                       (* useState: error *)
    step : Z;                           (* useState: step *)
    window_accountId : Value;           (* window.accountId *)
    queries : gmap string Query;        (* the query client's cache *)
    isSubmitting : bool;                (* Formik's submitting flag *)
    inflight : list MutationVariables;  (* mutations not yet settled, oldest first *)
    trace : list Call }.                (* calls made so far, oldest first *)

(** Handlers are state transformers, run one after the other. *)
Definition Cmd : Type := World -> World.

Definition seq (c1 c2 : Cmd) : Cmd := fun w => c2 (c1 w).
Definition skip : Cmd := fun w => w.

Notation "c1 ;; c2" := (seq c1 c2)
  (at level 100, c2 at level 200, right associativity) : cmd_scope.
Local Open Scope cmd_scope.

Definition emit (c : Call) : Cmd := fun w =>
  mkWorld (error w) (step w) (window_accountId w) (queries w) (isSubmitting w)
          (inflight w) (trace w ++ [c]).

Definition setError (n : Node) : Cmd := fun w =>
  emit (CallSetError n)
    (mkWorld n (step w) (window_accountId w) (queries w) (isSubmitting w)
             (inflight w) (trace w)).

Definition setStep (n : Z) : Cmd := fun w =>
  emit (CallSetStep n)
    (mkWorld (error w) n (window_accountId w) (queries w) (isSubmitting w)
             (inflight w) (trace w)).

(** [window.accountId = v]. *)
Definition assignWindowAccountId (v : Value) : Cmd := fun w =>
  emit (AssignWindowAccountId v)
    (mkWorld (error w) (step w) v (queries w) (isSubmitting w)
             (inflight w) (trace w)).

(** [queryClient.setQueryData(key, v)]: the entry holds [v] and is fresh. *)
Definition setQueryData (key : string) (v : Value) : Cmd := fun w =>
  emit (CallSetQueryData key v)
    (mkWorld (error w) (step w) (window_accountId w)
             (<[key := {| data := v; isInvalidated := false |}]> (queries w))
             (isSubmitting w) (inflight w) (trace w)).

(** [queryClient.invalidateQueries(key)]: an existing entry is marked
    invalidated, so that it is fetched again; nothing is created. *)
Definition invalidateQueries (key : string) : Cmd := fun w =>
  emit (CallInvalidateQueries key)
    (mkWorld (error w) (step w) (window_accountId w)
             (alter invalidated key (queries w))
             (isSubmitting w) (inflight w) (trace w)).

(** [Sentry.captureException(e)]. *)
Definition captureException (e : Rejection) : Cmd := emit (CallCaptureException e).

(** [checkoutEvent(p, label)]. *)
Definition checkoutEvent (p : GAProduct) (label : string) : Cmd :=
  emit (CallCheckoutEvent p label).

(** [actions.setSubmitting(b)]. *)
Definition setSubmitting (b : bool) : Cmd := fun w =>
  emit (CallSetSubmitting b)
    (mkWorld (error w) (step w) (window_accountId w) (queries w) b
             (inflight w) (trace w)).

(** [paymentMethodMutation.mutate(vars, callbacks)]: the request is in flight
    until it settles; the callbacks are [onSuccess] and [onError] below. *)
Definition mutate (vars : MutationVariables) : Cmd := fun w =>
  emit (CallMutate vars)
    (mkWorld (error w) (step w) (window_accountId w) (queries w) (isSubmitting w)
             (inflight w ++ [vars]) (trace w)).

(** [userInfo?.customerInfo?.defaultPaymentMethod]. *)
Definition defaultPaymentMethod (userInfo : Value) : Value :=
  userInfo ?. "customerInfo" ?. "defaultPaymentMethod".

(** The argument of [useState] for [step]. *)
Definition initialStep (userInfo : Value) : Z :=
  if Js.truthy (defaultPaymentMethod userInfo) then 2 else 1.

(** The body of the [useEffect] that depends on [userInfo]. *)
Definition userInfoEffect (userInfo : Value) : Cmd :=
  if Js.truthy (defaultPaymentMethod userInfo) then setStep 2 else skip.

(** What Formik is given as [initialValues] on a render. *)
Definition initialValues (userInfo : Value) (w : World) : FormValues :=
  getInitialFormValues userInfo (window_accountId w).

Definition GAFriendlyProduct : GAProduct :=
  {| ga_id := product ?. "id";
     ga_name := product ?. "name";
     ga_price := Div (product ?. "price" ?. "value") 100;
     ga_quantity := quantity |}.

Definition onSuccess (d : Response) (variables : MutationVariables) : Cmd :=
  assignWindowAccountId (accountId d) ;;
  setStep 2 ;;
  setQueryData "userInfo" (getUserInfoFromVariables d (formData variables)) ;;
  invalidateQueries "preview" ;;
  setSubmitting false.

Definition onError (e : Rejection) : Cmd :=
  match e with
  | ErrorInstance msg =>
      if String.eqb msg "email_already_exists" then
        setError signInMessage
      else
        let knownErrorMessage :=
          getErrorMessage {| message := EmptyString; code := msg |} in
        if React.truthy knownErrorMessage then
          setError knownErrorMessage
        else
          captureException e ;;
          setError unknownErrorMessage
  | NotAnError _ => skip
  end ;;
  setSubmitting false.

Definition onSubmit (values : FormValues) : Cmd :=
  setError NNull ;;
  checkoutEvent GAFriendlyProduct "2" ;;
  mutate {| formData := values; var_marketplace := marketplace |}.

(** *** The component as a transition system *)

(** What can happen to a mounted modal. *)
Inductive Event : Type :=
| UserInfoChanged (userInfo : Value)     (* a render sees a new [userInfo] *)
| Submit (values : FormValues)           (* Formik submits the form *)
| Settled (i : nat) (o : Outcome)        (* the [i]-th mutation in flight settles *)
| StepTwoSetStep (n : Z)                 (* [StepTwo] calls the [setStep] it was given *)
| StepTwoSetError (n : Node).            (* [StepTwo] calls the [setError] it was given *)

(** The state a freshly mounted modal starts from, given what the first
    render reads from its surroundings. *)
Definition mount (userInfo : Value) (accId : Value) (cache : gmap string Query) : World :=
  mkWorld NNull (initialStep userInfo) accId cache false [] [].

(** [step === 1 ? <StepOne/> : <StepTwo/>]. *)
Definition rendersStepTwo (w : World) : bool := negb (step w =? 1).

(** Formik raises its submitting flag before it calls [onSubmit]. *)
Definition beginSubmit : Cmd := fun w =>
  mkWorld (error w) (step w) (window_accountId w) (queries w) true
          (inflight w) (trace w).

(** The mutation leaves the requests in flight and its callback runs. *)
Definition settle (i : nat) (o : Outcome) (variables : MutationVariables) : Cmd :=
  (fun w => mkWorld (error w) (step w) (window_accountId w) (queries w)
                    (isSubmitting w) (delete i (inflight w)) (trace w)) ;;
  match o with
  | Success d => onSuccess d variables
  | Failure e => onError e
  end.

(** One event; [None] when it cannot happen in [w]: no such request is in
    flight, or [StepTwo] is not on screen. *)
Definition handle (e : Event) (w : World) : option World :=
  match e with
  | UserInfoChanged userInfo => Some (userInfoEffect userInfo w)
  | Submit values => Some ((beginSubmit ;; onSubmit values) w)
  | Settled i o =>
      match inflight w !! i with
      | Some variables => Some (settle i o variables w)
      | None => None
      end
  | StepTwoSetStep n => if rendersStepTwo w then Some (setStep n w) else None
  | StepTwoSetError n => if rendersStepTwo w then Some (setError n w) else None
  end.

(** A sequence of events, oldest first. *)
Fixpoint run (es : list Event) (w : World) : option World :=
  match es with
  | [] => Some w
  | e :: es' =>
      match handle e w with
      | Some w' => run es' w'
      | None => None
      end
  end.

(** One submission from start to end: the form is submitted in [w] and the
    request this starts settles with [o]. *)
Definition submission (values : FormValues) (o : Outcome) (w : World) : option World :=
  run [Submit values; Settled (length (inflight w)) o] w.

(** *** Counting calls in a trace *)

Definition isCaptureException (c : Call) : bool :=
  match c with CallCaptureException _ => true | _ => false end.

Definition isMutate (c : Call) : bool :=
  match c with CallMutate _ => true | _ => false end.

Definition isSetSubmittingFalse (c : Call) : bool :=
  match c with CallSetSubmitting false => true | _ => false end.

Definition isSetError (c : Call) : bool :=
  match c with CallSetError _ => true | _ => false end.

Definition calls (p : Call -> bool) (cs : list Call) : nat :=
  length (List.filter p cs).

(** *** Vocabulary of the properties *)

(** [userInfo] contains a default payment method: it is an object whose
    [customerInfo] is an object whose [defaultPaymentMethod] holds a value
    that counts as present. *)
Definition containsDefaultPaymentMethod (userInfo : Value) : bool :=
  match userInfo with
  | Obj fields =>
      match assoc "customerInfo" fields with
      | Some (Obj customer) =>
          match assoc "defaultPaymentMethod" customer with
          | Some method => Js.truthy method
          | None => false
          end
      | _ => false
      end
  | _ => false
  end.

(** The event is the effect seeing a default payment method in [userInfo]. *)
Definition detectsDefaultPaymentMethod (e : Event) : Prop :=
  exists userInfo,
    e = UserInfoChanged userInfo /\ containsDefaultPaymentMethod userInfo = true.

(** The event is a payment-method registration succeeding. *)
Definition registrationSucceeds (e : Event) : Prop :=
  exists i d, e = Settled i (Success d).

(** *** What the component returns *)

(** The remaining props, handed on to [StepTwo]. *)
Variable termsLabel : Node.
Variable preview : Value.

(** The functions and components passed down as props, by name. *)
Inductive Callback : Type := CloseModal | SetStep | SetError | OnSubmit.
Inductive ComponentProp : Type := SummaryProp | BuyButtonProp.

(** The step component on screen, with its props in source order. *)
Inductive StepElement : Type :=
| StepOne (err : Node) (closeModal : Callback)
| StepTwo (terms : Node) (setStepProp : Callback) (err : Node)
          (setErrorProp : Callback) (summary : ComponentProp)
          (closeModal : Callback) (prod prev : Value) (buyButton : ComponentProp).

(** The [Formik] element the component returns. *)
Record FormikElement : Type :=
  { formik_initialValues : FormValues;
    enableReinitialize : bool;
    formik_onSubmit : Callback;
    formik_child : StepElement }.

(** The [return] of a render that reads [userInfo] from the customer-info
    hook and the rest from [w]. *)
Definition render (userInfo : Value) (w : World) : FormikElement :=
  {| formik_initialValues := initialValues userInfo w;
     enableReinitialize := true;
     formik_onSubmit := OnSubmit;
     formik_child :=
       if step w =? 1 then
         StepOne (error w) CloseModal
       else
         StepTwo termsLabel SetStep (error w) SetError SummaryProp CloseModal
                 product preview BuyButtonProp |}.

Definition isStepOne (c : StepElement) : bool :=
  match c with StepOne _ _ => true | StepTwo _ _ _ _ _ _ _ _ _ => false end.

(** The [error] prop of the step on screen. *)
Definition shownError (c : StepElement) : Node :=
  match c with
  | StepOne err _ => err
  | StepTwo _ _ err _ _ _ _ _ _ => err
  end.

(** *** Counting events and further calls *)

Definition isSubmitEvent (e : Event) : bool :=
  match e with Submit _ => true | _ => false end.

Definition isSettledEvent (e : Event) : bool :=
  match e with Settled _ _ => true | _ => false end.

Definition isStepTwoSetStep (e : Event) : bool :=
  match e with StepTwoSetStep _ => true | _ => false end.

Definition events (p : Event -> bool) (es : list Event) : nat :=
  length (List.filter p es).

Definition isCheckoutEvent (c : Call) : bool :=
  match c with CallCheckoutEvent _ _ => true | _ => false end.

(** The outcome is an [Error] that is neither the existing-email error nor
    one [getErrorMessage] has a message for. *)
Definition unclassified (o : Outcome) : bool :=
  match o with
  | Failure (ErrorInstance msg) =>
      negb (String.eqb msg "email_already_exists")
      && negb (React.truthy (getErrorMessage {| message := EmptyString; code := msg |}))
  | _ => false
  end.

(** The world the callback of a request runs in when the request settles
    right after the submit that started it: the error is reset, the flag is
    raised, the three calls of [onSubmit] are on the trace and the request
    has left the requests in flight. *)
Definition submitted (values : FormValues) (w : World) : World :=
  mkWorld NNull (step w) (window_accountId w) (queries w) true (inflight w)
          (trace w ++ [ CallSetError NNull;
                        CallCheckoutEvent GAFriendlyProduct "2";
                        CallMutate {| formData := values;
                                      var_marketplace := marketplace |} ]).

(** The callback [mutate] was given for the outcome. *)
Definition callback (o : Outcome) (variables : MutationVariables) : Cmd :=
  match o with
  | Success d => onSuccess d variables
  | Failure e => onError e
  end.

(** *** Facts about the handlers *)

(** Unfolds the primitives of a handler applied to a world. *)
Ltac step_through :=
  cbv [seq skip emit setError setStep assignWindowAccountId setQueryData
       invalidateQueries captureException checkoutEvent setSubmitting mutate
       beginSubmit
       error step window_accountId queries isSubmitting inflight trace].

Ltac flatten_trace := rewrite <- ?app_assoc; cbn [app].

(** The request a submission starts is the last one in flight. *)
Lemma onSubmit_inflight (values : FormValues) (w : World) :
  inflight (onSubmit values w)
  = inflight w ++ [ {| formData := values; var_marketplace := marketplace |} ].
Proof. reflexivity. Qed.

Lemma onSubmit_trace (values : FormValues) (w : World) :
  trace (onSubmit values w)
  = trace w ++ [ CallSetError NNull;
                 CallCheckoutEvent GAFriendlyProduct "2";
                 CallMutate {| formData := values; var_marketplace := marketplace |} ].
Proof. unfold onSubmit. step_through. by flatten_trace. Qed.

(** Removing the last of the requests in flight gives back the earlier ones. *)
Lemma delete_last_request (l : list MutationVariables) (v : MutationVariables) :
  delete (length l) (l ++ [v]) = l.
Proof.
  induction l as [| x l IH]; [reflexivity |].
  change (x :: delete (length l) (l ++ [v]) = x :: l).
  by rewrite IH.
Qed.

(** A submission is the submit handler followed by the callback of the
    request it started, with the requests in flight as they were. *)
Lemma submission_unfold (values : FormValues) (o : Outcome) (w : World) :
  submission values o w
  = Some (settle (length (inflight w)) o
                 {| formData := values; var_marketplace := marketplace |}
                 (onSubmit values (beginSubmit w))).
Proof.
  unfold submission, run, handle, seq.
  rewrite onSubmit_inflight.
  change (inflight (beginSubmit w)) with (inflight w).
  by rewrite list_lookup_middle.
Qed.

Lemma setStep_two_only (n : Z) (w : World) : step (setStep n w) = n.
Proof. reflexivity. Qed.

Lemma onError_step (e : Rejection) (w : World) : step (onError e w) = step w.
Proof.
  unfold onError.
  destruct e as [msg | v]; [| reflexivity].
  destruct (String.eqb msg "email_already_exists"); [reflexivity |].
  destruct (React.truthy _); reflexivity.
Qed.

Lemma optional_chain_contains (userInfo : Value) :
  Js.truthy (defaultPaymentMethod userInfo) = containsDefaultPaymentMethod userInfo.
Proof.
  unfold defaultPaymentMethod, containsDefaultPaymentMethod, Js.optGet.
  destruct userInfo as [| | b | n | s | items | fields]; try reflexivity.
  destruct (assoc "customerInfo" fields) as [[| | b | n | s | items | customer] |];
    try reflexivity.
  cbn. by destruct (assoc "defaultPaymentMethod" customer).
Qed.

(** What [onSuccess] leaves behind, whatever the world it runs in. *)
Lemma onSuccess_effects (d : Response) (variables : MutationVariables) (w : World) :
  let w' := onSuccess d variables w in
  window_accountId w' = accountId d
  /\ step w' = 2
  /\ queries w' !! "userInfo"
     = Some {| data := getUserInfoFromVariables d (formData variables);
               isInvalidated := false |}
  /\ queries w' !! "preview" = invalidated <$> queries w !! "preview"
  /\ isSubmitting w' = false
  /\ error w' = error w
  /\ inflight w' = inflight w
  /\ trace w'
     = trace w ++ [ AssignWindowAccountId (accountId d);
                    CallSetStep 2;
                    CallSetQueryData "userInfo"
                      (getUserInfoFromVariables d (formData variables));
                    CallInvalidateQueries "preview";
                    CallSetSubmitting false ].
Proof.
  unfold onSuccess. step_through.
  split; [reflexivity |].
  split; [reflexivity |].
  split; [rewrite lookup_alter_ne by discriminate; apply lookup_insert_eq |].
  split; [rewrite lookup_alter_eq; by rewrite lookup_insert_ne by discriminate |].
  split; [reflexivity |].
  split; [reflexivity |].
  split; [reflexivity |].
  by flatten_trace.
Qed.

(** C1. Every submission whose payment-method registration succeeds sets
    [window.accountId] to the response's [accountId], sets [step] to 2,
    replaces the cached "userInfo" entry by the value
    [getUserInfoFromVariables] derives from the response and the submitted
    form data, marks the cached "preview" entry (when there is one) as
    invalidated, and clears Formik's submitting flag. *)
Theorem registration_success_updates (values : FormValues) (d : Response) (w : World) :
  exists w',
    submission values (Success d) w = Some w'
    /\ window_accountId w' = accountId d
    /\ step w' = 2
    /\ queries w' !! "userInfo"
       = Some {| data := getUserInfoFromVariables d values; isInvalidated := false |}
    /\ queries w' !! "preview" = invalidated <$> queries w !! "preview"
    /\ In (CallInvalidateQueries "preview") (trace w')
    /\ isSubmitting w' = false.
Proof.
  eexists. split; [apply submission_unfold |].
  unfold settle, seq.
  match goal with
  | |- context [onSuccess d ?v ?w0] =>
      destruct (onSuccess_effects d v w0) as (Ha & Hs & Hu & Hp & Hf & _ & _ & Ht)
  end.
  repeat split; try assumption.
  rewrite Ht. apply in_or_app. right.
  do 3 right. by left.
Qed.

(** C3. Every submission that fails with an [Error] whose message is exactly
    "email_already_exists" sets the error to the sign-in message and leaves
    [step] as it was. *)
Theorem email_already_exists_message (values : FormValues) (w : World) :
  exists w',
    submission values (Failure (ErrorInstance "email_already_exists")) w = Some w'
    /\ error w' = signInMessage
    /\ step w' = step w.
Proof.
  eexists. split; [apply submission_unfold |].
  split; reflexivity.
Qed.

(** C4. Every submission that fails with an [Error] whose code is not
    "email_already_exists" and for which [getErrorMessage] returns nothing
    makes exactly one [Sentry.captureException] call, with that error, and
    sets the error to the generic message. *)
Theorem unknown_error_reported_once (values : FormValues) (msg : string) (w : World) :
  msg <> "email_already_exists" ->
  React.truthy (getErrorMessage {| message := EmptyString; code := msg |}) = false ->
  exists w' cs,
    submission values (Failure (ErrorInstance msg)) w = Some w'
    /\ trace w' = trace w ++ cs
    /\ calls isCaptureException cs = 1%nat
    /\ In (CallCaptureException (ErrorInstance msg)) cs
    /\ error w' = unknownErrorMessage.
Proof.
  intros Hcode Hunknown.
  apply String.eqb_neq in Hcode.
  exists (settle (length (inflight w)) (Failure (ErrorInstance msg))
                 {| formData := values; var_marketplace := marketplace |}
                 (onSubmit values (beginSubmit w))).
  exists [ CallSetError NNull;
           CallCheckoutEvent GAFriendlyProduct "2";
           CallMutate {| formData := values; var_marketplace := marketplace |};
           CallCaptureException (ErrorInstance msg);
           CallSetError unknownErrorMessage;
           CallSetSubmitting false ].
  split; [apply submission_unfold |].
  unfold settle, onError, onSubmit. rewrite Hcode, Hunknown.
  step_through. flatten_trace.
  repeat split; try reflexivity.
  do 3 right. by left.
Qed.

(** C5. When the registration fails with a value that is not an [Error], the
    submission ends with no error message shown, makes no call to
    [Sentry.captureException] and no [setError] call after the initial reset,
    and still clears the submitting flag. *)
Theorem non_error_rejection_silent (values : FormValues) (v : Value) (w : World) :
  exists w',
    submission values (Failure (NotAnError v)) w = Some w'
    /\ error w' = NNull
    /\ trace w'
       = trace w ++ [ CallSetError NNull;
                      CallCheckoutEvent GAFriendlyProduct "2";
                      CallMutate {| formData := values; var_marketplace := marketplace |};
                      CallSetSubmitting false ]
    /\ calls isCaptureException (drop (length (trace w)) (trace w')) = 0%nat
    /\ isSubmitting w' = false.
Proof.
  eexists. split; [apply submission_unfold |].
  unfold settle, onError, onSubmit. step_through. flatten_trace.
  repeat split.
  by rewrite drop_app_length.
Qed.

(** C6. For every [userInfo] the modal is mounted with, the initial step is
    2 when [userInfo] contains a default payment method and 1 otherwise, and
    the effect that runs after the first render leaves it so. *)
Theorem initial_step_by_default_payment_method
    (userInfo accId : Value) (cache : gmap string Query) :
  step (mount userInfo accId cache)
  = (if containsDefaultPaymentMethod userInfo then 2 else 1)
  /\ step (userInfoEffect userInfo (mount userInfo accId cache))
     = step (mount userInfo accId cache).
Proof.
  unfold userInfoEffect, mount, initialStep.
  rewrite optional_chain_contains.
  destruct (containsDefaultPaymentMethod userInfo); split; reflexivity.
Qed.

(** C7. Whatever the world a submission starts in, hence whatever an earlier
    submission left in the error state, [onSubmit] first calls
    [setError(null)]: the registration call is made in a world whose error is
    [null], no call precedes the reset, and the error is still [null] when
    [onSubmit] returns. *)
Theorem submit_clears_error_first (values : FormValues) (w : World) :
  exists w0 variables rest,
    handle (Submit values) w = Some (mutate variables w0)
    /\ error w0 = NNull
    /\ trace w0 = trace w ++ CallSetError NNull :: rest
    /\ calls isMutate rest = 0%nat
    /\ error (mutate variables w0) = NNull.
Proof.
  exists ((setError NNull ;; checkoutEvent GAFriendlyProduct "2") (beginSubmit w)).
  exists {| formData := values; var_marketplace := marketplace |}.
  exists [CallCheckoutEvent GAFriendlyProduct "2"].
  repeat split.
  step_through. by flatten_trace.
Qed.

(** C8. On every submit the controller makes three calls, in this order:
    [setError(null)], [checkoutEvent(GAFriendlyProduct, "2")], and
    [mutate] with the submitted form values and the [marketplace] prop; the
    request is then in flight. *)
Theorem submit_call_order (values : FormValues) (w : World) :
  exists w',
    handle (Submit values) w = Some w'
    /\ trace w'
       = trace w ++ [ CallSetError NNull;
                      CallCheckoutEvent GAFriendlyProduct "2";
                      CallMutate {| formData := values; var_marketplace := marketplace |} ]
    /\ inflight w'
       = inflight w ++ [ {| formData := values; var_marketplace := marketplace |} ].
Proof.
  eexists. split; [reflexivity |].
  split.
  - exact (onSubmit_trace values (beginSubmit w)).
  - exact (onSubmit_inflight values (beginSubmit w)).
Qed.

(** The calls of [onError]: one [setSubmitting(false)], no [mutate]. *)
Lemma onError_calls (e : Rejection) (w : World) :
  exists cs,
    trace (onError e w) = trace w ++ cs
    /\ calls isSetSubmittingFalse cs = 1%nat
    /\ calls isMutate cs = 0%nat
    /\ isSubmitting (onError e w) = false
    /\ inflight (onError e w) = inflight w.
Proof.
  unfold onError.
  destruct e as [msg | v].
  - destruct (String.eqb msg "email_already_exists").
    + exists [CallSetError signInMessage; CallSetSubmitting false].
      step_through. flatten_trace. by repeat split.
    + destruct (React.truthy (getErrorMessage _)) eqn:Hknown.
      * eexists [CallSetError _; CallSetSubmitting false].
        step_through. flatten_trace. by repeat split.
      * exists [CallCaptureException (ErrorInstance msg);
                CallSetError unknownErrorMessage; CallSetSubmitting false].
        step_through. flatten_trace. by repeat split.
  - exists [CallSetSubmitting false].
    step_through. by repeat split.
Qed.

(** C9. Every submission, whether the registration succeeds or fails, clears
    the submitting flag with exactly one [setSubmitting(false)] call and makes
    exactly one [mutate] call: the request is not sent again, and nothing the
    submission started is left in flight. *)
Theorem submission_completes_once (values : FormValues) (o : Outcome) (w : World) :
  exists w' cs,
    submission values o w = Some w'
    /\ trace w' = trace w ++ cs
    /\ calls isSetSubmittingFalse cs = 1%nat
    /\ calls isMutate cs = 1%nat
    /\ isSubmitting w' = false
    /\ inflight w' = inflight w.
Proof.
  pose (vars := {| formData := values; var_marketplace := marketplace |}).
  pose (w1 := onSubmit values (beginSubmit w)).
  pose (w2 := mkWorld (error w1) (step w1) (window_accountId w1) (queries w1)
                      (isSubmitting w1) (inflight w) (trace w1)).
  assert (Hsettle : forall o', settle (length (inflight w)) o' vars w1
                     = match o' with
                       | Success d => onSuccess d vars w2
                       | Failure e => onError e w2
                       end).
  { intros o'. unfold settle, seq, w2.
    change (inflight w1) with (inflight w ++ [vars]).
    rewrite delete_last_request. by destruct o'. }
  assert (Ht : trace w2 = trace w ++ [ CallSetError NNull;
                                       CallCheckoutEvent GAFriendlyProduct "2";
                                       CallMutate vars ]).
  { apply (onSubmit_trace values (beginSubmit w)). }
  destruct o as [d | e].
  - destruct (onSuccess_effects d vars w2) as (_ & _ & _ & _ & Hf & _ & Hi & Hc).
    eexists. eexists. split; [apply submission_unfold |].
    fold vars w1. rewrite (Hsettle (Success d)).
    rewrite Hc, Ht. flatten_trace.
    split; [reflexivity |]. by repeat split.
  - destruct (onError_calls e w2) as (cs & Hc & Hone & Hnone & Hf & Hi).
    exists (onError e w2).
    exists ([ CallSetError NNull; CallCheckoutEvent GAFriendlyProduct "2";
              CallMutate vars ] ++ cs).
    split; [rewrite submission_unfold; fold vars w1; by rewrite (Hsettle (Failure e)) |].
    split; [rewrite Hc, Ht; by rewrite <- app_assoc |].
    unfold calls in *. rewrite !List.filter_app, !length_app, Hone, Hnone.
    by repeat split.
Qed.

(** C2. One event moves [step] from 1 to 2 only if it is the effect seeing a
    default payment method in [userInfo] or a registration succeeding, and
    moves [step] from 2 to 1 only if it is [StepTwo] calling [setStep(1)]:
    no handler of the controller itself ever sets [step] to 1. *)
Theorem step_transitions (e : Event) (w w' : World) :
  handle e w = Some w' ->
  (step w = 1 -> step w' = 2 ->
     detectsDefaultPaymentMethod e \/ registrationSucceeds e)
  /\ (step w = 2 -> step w' = 1 -> e = StepTwoSetStep 1).
Proof.
  intros Hstep.
  destruct e as [userInfo | values | i o | n | n]; cbn [handle] in Hstep.
  - injection Hstep as <-. unfold userInfoEffect.
    destruct (Js.truthy (defaultPaymentMethod userInfo)) eqn:Hdefault.
    + split.
      * intros _ _. left. exists userInfo.
        by rewrite <- optional_chain_contains.
      * rewrite setStep_two_only. lia.
    + unfold skip. split; lia.
  - injection Hstep as <-.
    change (step ((beginSubmit ;; onSubmit values) w)) with (step w).
    split; lia.
  - destruct (inflight w !! i) as [variables |]; [| discriminate].
    injection Hstep as <-.
    destruct o as [d | err].
    + split.
      * intros _ _. right. by exists i, d.
      * change (step (settle i (Success d) variables w)) with 2. lia.
    + unfold settle, seq. rewrite onError_step. cbn [step]. split; lia.
  - unfold rendersStepTwo in Hstep.
    destruct (step w =? 1) eqn:Hone; [discriminate |].
    apply Z.eqb_neq in Hone.
    injection Hstep as <-. rewrite setStep_two_only.
    split; [lia |]. by intros _ ->.
  - destruct (rendersStepTwo w); [| discriminate].
    injection Hstep as <-.
    change (step (setError n w)) with (step w).
    split; lia.
Qed.

(** *** Further facts: whole submissions *)

(** A submission runs the callback for its outcome in the [submitted] world. *)
Lemma submission_runs_callback (values : FormValues) (o : Outcome) (w : World) :
  submission values o w
  = Some (callback o {| formData := values; var_marketplace := marketplace |}
                   (submitted values w)).
Proof.
  rewrite submission_unfold. f_equal.
  unfold settle, seq, callback.
  assert (Hw : mkWorld (error (onSubmit values (beginSubmit w)))
                       (step (onSubmit values (beginSubmit w)))
                       (window_accountId (onSubmit values (beginSubmit w)))
                       (queries (onSubmit values (beginSubmit w)))
                       (isSubmitting (onSubmit values (beginSubmit w)))
                       (delete (length (inflight w))
                               (inflight (onSubmit values (beginSubmit w))))
                       (trace (onSubmit values (beginSubmit w)))
                = submitted values w).
  { rewrite (onSubmit_inflight values (beginSubmit w)).
    change (inflight (beginSubmit w)) with (inflight w).
    rewrite delete_last_request.
    rewrite (onSubmit_trace values (beginSubmit w)).
    reflexivity. }
  rewrite Hw. by destruct o.
Qed.

(** The calls of [onError], counted by kind. *)
Lemma onError_counts (e : Rejection) (w : World) :
  exists cs,
    trace (onError e w) = trace w ++ cs
    /\ calls isMutate cs = 0%nat
    /\ calls isCheckoutEvent cs = 0%nat
    /\ calls isSetSubmittingFalse cs = 1%nat
    /\ calls isCaptureException cs = (if unclassified (Failure e) then 1 else 0)%nat.
Proof.
  unfold onError, unclassified.
  destruct e as [msg | v].
  - destruct (String.eqb msg "email_already_exists").
    + exists [CallSetError signInMessage; CallSetSubmitting false].
      step_through. flatten_trace. by repeat split.
    + destruct (React.truthy (getErrorMessage _)) eqn:Hknown.
      * eexists [CallSetError _; CallSetSubmitting false].
        step_through. flatten_trace. by repeat split.
      * exists [CallCaptureException (ErrorInstance msg);
                CallSetError unknownErrorMessage; CallSetSubmitting false].
        step_through. flatten_trace. by repeat split.
  - exists [CallSetSubmitting false].
    step_through. by repeat split.
Qed.

(** What [onError] never touches. *)
Lemma onError_frame (e : Rejection) (w : World) :
  step (onError e w) = step w
  /\ window_accountId (onError e w) = window_accountId w
  /\ queries (onError e w) = queries w
  /\ inflight (onError e w) = inflight w
  /\ isSubmitting (onError e w) = false.
Proof.
  unfold onError.
  destruct e as [msg | v]; [| by repeat split].
  destruct (String.eqb msg "email_already_exists"); [by repeat split |].
  destruct (React.truthy (getErrorMessage _)); by repeat split.
Qed.

(** X1. A submission that fails with an [Error] whose code is not
    "email_already_exists" and for which [getErrorMessage] has a message
    shows exactly that message, makes no [Sentry.captureException] call,
    leaves [step] as it was and clears the submitting flag. *)
Theorem known_error_message_shown (values : FormValues) (msg : string) (w : World) :
  msg <> "email_already_exists" ->
  React.truthy (getErrorMessage {| message := EmptyString; code := msg |}) = true ->
  exists w' cs,
    submission values (Failure (ErrorInstance msg)) w = Some w'
    /\ error w' = getErrorMessage {| message := EmptyString; code := msg |}
    /\ trace w' = trace w ++ cs
    /\ calls isCaptureException cs = 0%nat
    /\ step w' = step w
    /\ isSubmitting w' = false.
Proof.
  intros Hcode Hknown.
  apply String.eqb_neq in Hcode.
  eexists.
  exists [ CallSetError NNull;
           CallCheckoutEvent GAFriendlyProduct "2";
           CallMutate {| formData := values; var_marketplace := marketplace |};
           CallSetError (getErrorMessage {| message := EmptyString; code := msg |});
           CallSetSubmitting false ].
  split; [apply submission_runs_callback |].
  unfold callback, onError, submitted. rewrite Hcode, Hknown.
  step_through. flatten_trace. by repeat split.
Qed.

(** X2. A failed submission, whatever it was rejected with, changes neither
    [step] nor [window.accountId] nor any entry of the query cache, and
    leaves no request in flight. *)
Theorem failed_submission_frame (values : FormValues) (e : Rejection) (w : World) :
  exists w',
    submission values (Failure e) w = Some w'
    /\ step w' = step w
    /\ window_accountId w' = window_accountId w
    /\ queries w' = queries w
    /\ inflight w' = inflight w.
Proof.
  eexists. split; [apply submission_runs_callback |].
  cbn [callback].
  destruct (onError_frame e (submitted values w)) as (Hs & Ha & Hq & Hi & _).
  rewrite Hs, Ha, Hq, Hi. by repeat split.
Qed.

(** X3. Over all outcomes, a submission calls [Sentry.captureException]
    once when the registration fails with an unclassified [Error], and not at
    all otherwise: not on success, not for "email_already_exists", not for a
    code [getErrorMessage] knows, not for a rejection that is no [Error]. *)
Theorem report_iff_unclassified (values : FormValues) (o : Outcome) (w : World) :
  exists w' cs,
    submission values o w = Some w'
    /\ trace w' = trace w ++ cs
    /\ calls isCaptureException cs = (if unclassified o then 1 else 0)%nat.
Proof.
  pose (vars := {| formData := values; var_marketplace := marketplace |}).
  destruct o as [d | e].
  - destruct (onSuccess_effects d vars (submitted values w))
      as (_ & _ & _ & _ & _ & _ & _ & Ht).
    eexists. eexists. split; [apply submission_runs_callback |].
    cbn [callback]. fold vars. rewrite Ht.
    unfold submitted; cbn [trace]. flatten_trace. by split.
  - destruct (onError_counts e (submitted values w)) as (cs & Ht & _ & _ & _ & Hc).
    eexists.
    exists ([ CallSetError NNull; CallCheckoutEvent GAFriendlyProduct "2";
              CallMutate vars ] ++ cs).
    split; [apply submission_runs_callback |].
    cbn [callback]. rewrite Ht.
    unfold submitted; cbn [trace]. rewrite <- app_assoc.
    split; [reflexivity |].
    unfold calls in *. rewrite List.filter_app, length_app, Hc. reflexivity.
Qed.

(** X4. A successful submission leaves every cache entry other than
    "userInfo" and "preview" as it was, and keeps the data of the "preview"
    entry: it only marks it. *)
Theorem success_keeps_other_queries
    (values : FormValues) (d : Response) (key : string) (w : World) :
  key <> "userInfo" ->
  key <> "preview" ->
  exists w',
    submission values (Success d) w = Some w'
    /\ queries w' !! key = queries w !! key
    /\ data <$> queries w' !! "preview" = data <$> queries w !! "preview".
Proof.
  intros Hu Hp.
  eexists. split; [apply submission_runs_callback |].
  destruct w as [err st acc cache flag reqs calls0].
  unfold callback, onSuccess, submitted. step_through.
  split.
  - rewrite lookup_alter_ne by congruence. by rewrite lookup_insert_ne by congruence.
  - rewrite lookup_alter_eq, lookup_insert_ne by discriminate.
    destruct (cache !! "preview"); reflexivity.
Qed.

(** X5. Resubmitting after a failure: when a submission fails and the next
    one succeeds, the failure's message is gone ([error] is [null]), [step]
    is 2, and the account identifier and the cached "userInfo" come from the
    second submission. *)
Theorem resubmission_after_failure
    (values1 values2 : FormValues) (e : Rejection) (d : Response) (w : World) :
  exists w1 w2,
    submission values1 (Failure e) w = Some w1
    /\ submission values2 (Success d) w1 = Some w2
    /\ error w2 = NNull
    /\ step w2 = 2
    /\ window_accountId w2 = accountId d
    /\ queries w2 !! "userInfo"
       = Some {| data := getUserInfoFromVariables d values2; isInvalidated := false |}
    /\ isSubmitting w2 = false.
Proof.
  eexists. eexists.
  split; [apply submission_runs_callback |].
  split; [apply submission_runs_callback |].
  cbn [callback].
  match goal with
  | |- context [onSuccess d ?v ?w0] =>
      destruct (onSuccess_effects d v w0) as (Ha & Hs & Hu & _ & Hf & He & _ & _)
  end.
  rewrite He. by repeat split.
Qed.

(** X11. The account identifier a successful submission stores is what the
    next render passes to [getInitialFormValues]. *)
Theorem initial_values_after_success
    (values : FormValues) (d : Response) (userInfo : Value) (w : World) :
  exists w',
    submission values (Success d) w = Some w'
    /\ formik_initialValues (render userInfo w')
       = getInitialFormValues userInfo (accountId d).
Proof.
  eexists. split; [apply submission_runs_callback |].
  reflexivity.
Qed.

(** X9. After a successful submission the modal shows [StepTwo], with no
    error and with the [termsLabel], [product] and [preview] props handed
    on, whatever step was on screen before. *)
Theorem success_renders_step_two
    (values : FormValues) (d : Response) (userInfo : Value) (w : World) :
  exists w',
    submission values (Success d) w = Some w'
    /\ formik_child (render userInfo w')
       = StepTwo termsLabel SetStep NNull SetError SummaryProp CloseModal
                 product preview BuyButtonProp.
Proof.
  eexists. split; [apply submission_runs_callback |].
  reflexivity.
Qed.

(** X10. A failed submission never changes which step is on screen, and the
    step shown receives the error the failure left. *)
Theorem failure_keeps_step_on_screen
    (values : FormValues) (e : Rejection) (userInfo : Value) (w : World) :
  exists w',
    submission values (Failure e) w = Some w'
    /\ isStepOne (formik_child (render userInfo w'))
       = isStepOne (formik_child (render userInfo w))
    /\ shownError (formik_child (render userInfo w')) = error w'.
Proof.
  eexists. split; [apply submission_runs_callback |].
  cbn [callback render formik_child].
  destruct (onError_frame e (submitted values w)) as (Hs & _).
  rewrite Hs. change (step (submitted values w)) with (step w).
  destruct (step w =? 1); by split.
Qed.

(** X13. A submit is never refused and never moves the modal: whatever the
    state, also with the submitting flag raised and requests in flight, it
    starts one more request and leaves [step], [window.accountId] and the
    query cache as they were. *)
Theorem submit_frame (values : FormValues) (w : World) :
  exists w',
    handle (Submit values) w = Some w'
    /\ length (inflight w') = S (length (inflight w))
    /\ step w' = step w
    /\ window_accountId w' = window_accountId w
    /\ queries w' = queries w.
Proof.
  eexists. split; [reflexivity |].
  split; [| by repeat split].
  change (inflight ((beginSubmit ;; onSubmit values) w))
    with (inflight w ++ [ {| formData := values; var_marketplace := marketplace |} ]).
  rewrite length_app. cbn. lia.
Qed.

(** X12. After a failed submission a message is on screen exactly when the
    registration was rejected with an [Error]: every [Error] yields a
    non-empty error node, any other rejection leaves [null]. *)
Theorem failure_message_iff_error (values : FormValues) (e : Rejection) (w : World) :
  exists w',
    submission values (Failure e) w = Some w'
    /\ React.truthy (error w')
       = match e with ErrorInstance _ => true | NotAnError _ => false end
    /\ match e with ErrorInstance _ => True | NotAnError _ => error w' = NNull end.
Proof.
  eexists. split; [apply submission_runs_callback |].
  unfold callback, onError.
  destruct e as [msg | v]; [| by split].
  destruct (String.eqb msg "email_already_exists"); [by split |].
  destruct (React.truthy (getErrorMessage _)) eqn:Hknown; [| by split].
  split; [| exact I].
  unfold submitted. step_through. exact Hknown.
Qed.

(** *** Further facts: sequences of events *)

(** Renders that only see [userInfo] change. *)
Lemma userInfo_changes_step (userInfos : list Value) (w : World) :
  exists w',
    run (map UserInfoChanged userInfos) w = Some w'
    /\ step w' = if existsb containsDefaultPaymentMethod userInfos then 2 else step w.
Proof.
  revert w.
  induction userInfos as [| userInfo rest IH]; intros w.
  - exists w. by split.
  - cbn [map run handle existsb].
    destruct (IH (userInfoEffect userInfo w)) as (w' & Hrun & Hstep).
    exists w'. split; [exact Hrun |].
    rewrite Hstep. unfold userInfoEffect.
    rewrite optional_chain_contains.
    destruct (containsDefaultPaymentMethod userInfo); cbn [orb].
    + rewrite setStep_two_only. by destruct (existsb _ rest).
    + reflexivity.
Qed.

(** X6. However [userInfo] changes after the modal is mounted, [step] is 2
    exactly when one of the values seen so far, the one at mount included,
    contained a default payment method, and 1 otherwise: a later [userInfo]
    without a default payment method does not bring step one back. *)
Theorem step_after_userInfo_changes
    (userInfo0 accId : Value) (cache : gmap string Query) (userInfos : list Value) :
  exists w',
    run (map UserInfoChanged userInfos) (mount userInfo0 accId cache) = Some w'
    /\ step w'
       = if existsb containsDefaultPaymentMethod (userInfo0 :: userInfos)
         then 2 else 1.
Proof.
  destruct (userInfo_changes_step userInfos (mount userInfo0 accId cache))
    as (w' & Hrun & Hstep).
  exists w'. split; [exact Hrun |].
  rewrite Hstep. cbn [existsb mount step]. unfold initialStep.
  rewrite optional_chain_contains.
  destruct (containsDefaultPaymentMethod userInfo0);
    by destruct (existsb _ userInfos).
Qed.

(** One event that is not [StepTwo] calling [setStep] keeps [step] among 1
    and 2 and does not lower it. *)
Lemma handle_step_monotone (e : Event) (w w' : World) :
  handle e w = Some w' ->
  isStepTwoSetStep e = false ->
  step w = 1 \/ step w = 2 ->
  (step w' = 1 \/ step w' = 2) /\ step w <= step w'.
Proof.
  intros Hstep Hnav Hrange.
  destruct e as [userInfo | values | i o | n | n]; cbn [handle] in Hstep;
    try discriminate Hnav.
  - injection Hstep as <-. unfold userInfoEffect.
    destruct (Js.truthy (defaultPaymentMethod userInfo)).
    + rewrite setStep_two_only. lia.
    + unfold skip. lia.
  - injection Hstep as <-.
    change (step ((beginSubmit ;; onSubmit values) w)) with (step w). lia.
  - destruct (inflight w !! i) as [variables |]; [| discriminate].
    injection Hstep as <-.
    destruct o as [d | err].
    + change (step (settle i (Success d) variables w)) with 2. lia.
    + unfold settle, seq. rewrite onError_step. cbn [step]. lia.
  - destruct (rendersStepTwo w); [| discriminate].
    injection Hstep as <-.
    change (step (setError n w)) with (step w). lia.
Qed.

(** X7. Along any sequence of events in which [StepTwo] never calls
    [setStep], a modal whose step is 1 or 2 keeps a step of 1 or 2 and never
    goes back: once step two is reached it stays. *)
Theorem step_monotone_without_navigation (es : list Event) (w w' : World) :
  run es w = Some w' ->
  events isStepTwoSetStep es = 0%nat ->
  step w = 1 \/ step w = 2 ->
  (step w' = 1 \/ step w' = 2) /\ step w <= step w'.
Proof.
  revert w.
  induction es as [| e es IH]; intros w Hrun Hnav Hrange.
  - injection Hrun as <-. split; [exact Hrange | lia].
  - cbn [run] in Hrun.
    destruct (handle e w) as [w1 |] eqn:Hstep; [| discriminate].
    unfold events in Hnav. cbn [List.filter] in Hnav.
    destruct (isStepTwoSetStep e) eqn:He; [discriminate Hnav |].
    destruct (handle_step_monotone e w w1 Hstep He Hrange) as [Hrange1 Hle1].
    destruct (IH w1 Hrun Hnav Hrange1) as [Hrange' Hle'].
    split; [exact Hrange' | lia].
Qed.



End Controller.

(** *** The controller run on a sample purchase *)

(** Form values are an email address, the marketplace is its name and a
    response is a JavaScript object. *)
Local Abbreviation sample_product := (Obj [("id", Str "uai-essential")]).
Local Abbreviation sample_handle :=
  (handle (FormValues := string) (Marketplace := string) (Response := Value)
          sample_accountId sample_getUserInfoFromVariables
          sample_getErrorMessage sample_product 1 "canonical-ua").
Local Abbreviation sample_submission :=
  (submission (FormValues := string) (Marketplace := string) (Response := Value)
              sample_accountId sample_getUserInfoFromVariables
              sample_getErrorMessage sample_product 1 "canonical-ua").
Local Abbreviation sample_mount :=
  (mount (FormValues := string) (Marketplace := string) Undefined Undefined ∅).
Local Abbreviation sample_response :=
  (Obj [("accountId", Str "acct_42"); ("paymentMethod", Obj [("brand", Str "visa")])]).

Local Abbreviation sample_settled :=
  (Settled (FormValues := string) 0 (Success sample_response)).

Local Abbreviation sample_pending :=
  (mkWorld NNull 1 Undefined ∅ true
           [ {| formData := "a@b.com"; var_marketplace := "canonical-ua" |} ] []).

Example sample_success :
  exists w,
    sample_submission "a@b.com" (Success sample_response) sample_mount = Some w
    /\ step w = 2
    /\ window_accountId w = Str "acct_42"
    /\ error w = NNull
    /\ (data <$> queries w !! "userInfo") ≫= (fun u => Some (u ?. "accountId"))
       = Some (Str "acct_42").
Proof. eexists. split; [reflexivity |]. by vm_compute. Qed.

Lemma unknown_error_reported_once_witness :
  "processing_error" <> "email_already_exists"
  /\ React.truthy (sample_getErrorMessage
                     {| message := EmptyString; code := "processing_error" |}) = false
  /\ exists w' cs,
       sample_submission "a@b.com" (Failure (ErrorInstance "processing_error"))
                         sample_mount = Some w'
       /\ trace w' = trace sample_mount ++ cs
       /\ calls isCaptureException cs = 1%nat
       /\ In (CallCaptureException (ErrorInstance "processing_error")) cs
       /\ error w' = unknownErrorMessage.
Proof.
  split; [discriminate |].
  split; [reflexivity |].
  apply unknown_error_reported_once.
  - discriminate.
  - reflexivity.
Defined.

Lemma step_transitions_witness :
  exists w',
    sample_handle sample_settled sample_pending = Some w'
    /\ step sample_pending = 1
    /\ step w' = 2
    /\ (detectsDefaultPaymentMethod sample_settled
        \/ registrationSucceeds sample_settled).
Proof.
  eexists.
  split; [reflexivity |].
  split; [reflexivity |].
  split; [reflexivity |].
  eapply (proj1 (step_transitions sample_accountId
                   sample_getUserInfoFromVariables sample_getErrorMessage
                   sample_product 1 "canonical-ua"
                   sample_settled sample_pending _ eq_refl)); reflexivity.
Defined.

(** *** Further sample runs *)

Local Abbreviation sample_run :=
  (run (FormValues := string) (Marketplace := string) (Response := Value)
       sample_accountId sample_getUserInfoFromVariables
       sample_getErrorMessage sample_product 1 "canonical-ua").
Local Abbreviation sample_events :=
  [ Submit (FormValues := string) "a@b.com";
    Settled 0 (Failure (ErrorInstance "card_declined"));
    Submit "a@b.com";
    Settled 0 (Success sample_response);
    UserInfoChanged Undefined ].
Local Abbreviation sample_cached :=
  (mkWorld (FormValues := string) (Marketplace := string)
           NNull 1 Undefined
           (<["products" := {| data := Arr [Str "uai-essential"];
                               isInvalidated := false |}]>
              (<["preview" := {| data := Obj [("total", Number 2500)];
                                 isInvalidated := false |}]> ∅))
           false [] []).

Lemma known_error_message_shown_witness :
  "card_declined" <> "email_already_exists"
  /\ React.truthy (sample_getErrorMessage
                     {| message := EmptyString; code := "card_declined" |}) = true
  /\ exists w' cs,
       sample_submission "a@b.com" (Failure (ErrorInstance "card_declined"))
                         sample_mount = Some w'
       /\ error w' = sample_getErrorMessage
                       {| message := EmptyString; code := "card_declined" |}
       /\ trace w' = trace sample_mount ++ cs
       /\ calls isCaptureException cs = 0%nat
       /\ step w' = step sample_mount
       /\ isSubmitting w' = false.
Proof.
  split; [discriminate |].
  split; [reflexivity |].
  apply known_error_message_shown.
  - discriminate.
  - reflexivity.
Defined.

Lemma success_keeps_other_queries_witness :
  "products" <> "userInfo"
  /\ "products" <> "preview"
  /\ exists w',
       sample_submission "a@b.com" (Success sample_response) sample_cached = Some w'
       /\ queries w' !! "products" = queries sample_cached !! "products"
       /\ data <$> queries w' !! "preview" = data <$> queries sample_cached !! "preview".
Proof.
  split; [discriminate |].
  split; [discriminate |].
  apply success_keeps_other_queries; discriminate.
Defined.

Lemma step_monotone_without_navigation_witness :
  exists w',
    sample_run sample_events sample_mount = Some w'
    /\ events isStepTwoSetStep sample_events = 0%nat
    /\ (step sample_mount = 1 \/ step sample_mount = 2)
    /\ (step w' = 1 \/ step w' = 2)
    /\ step sample_mount <= step w'.
Proof.
  eassert (Hrun : sample_run sample_events sample_mount = Some _)
    by (vm_compute; reflexivity).
  eexists.
  split; [exact Hrun |].
  split; [reflexivity |].
  split; [left; reflexivity |].
  exact (step_monotone_without_navigation sample_accountId
           sample_getUserInfoFromVariables sample_getErrorMessage
           sample_product 1 "canonical-ua"
           sample_events sample_mount _ Hrun eq_refl (or_introl eq_refl)).
Defined.


(** *** The tracked product *)

(** X16. When the [product] prop is not an object ([undefined] while it is
    loading, [null], a primitive), a submit is handled all the same: the
    checkout event is sent with [id], [name] and the dividend of [price]
    all [undefined], carrying the [quantity] prop, and the registration
    starts. *)
Theorem submit_without_product
    {FormValues Marketplace Response : Type}
    (accountId : Response -> Value)
    (getUserInfoFromVariables : Response -> FormValues -> Value)
    (getErrorMessage : ErrorArg -> Node)
    (product : Value) (quantity : Z) (marketplace : Marketplace)
    (values : FormValues) (w : World) :
  (forall fields, product <> Obj fields) ->
  exists w',
    handle accountId getUserInfoFromVariables getErrorMessage
           product quantity marketplace (Submit values) w = Some w'
    /\ trace w'
       = trace w ++ [ CallSetError NNull;
                      CallCheckoutEvent
                        {| ga_id := Undefined; ga_name := Undefined;
                           ga_price := Div Undefined 100;
                           ga_quantity := quantity |} "2";
                      CallMutate {| formData := values;
                                    var_marketplace := marketplace |} ].
Proof.
  intros Hobj.
  assert (Hga : GAFriendlyProduct product quantity
                = {| ga_id := Undefined; ga_name := Undefined;
                     ga_price := Div Undefined 100; ga_quantity := quantity |}).
  { unfold GAFriendlyProduct.
    destruct product as [| | b | n | s | items | fields]; try reflexivity.
    by destruct (Hobj fields). }
  eexists. split; [reflexivity |].
  rewrite <- Hga.
  exact (onSubmit_trace product quantity marketplace values (beginSubmit w)).
Qed.

Lemma submit_without_product_witness :
  (forall fields, Undefined <> Obj fields)
  /\ exists w',
       handle sample_accountId sample_getUserInfoFromVariables
              sample_getErrorMessage Undefined 1 "canonical-ua"
              (Submit "a@b.com") sample_mount = Some w'
       /\ trace w'
          = trace sample_mount
            ++ [ CallSetError NNull;
                 CallCheckoutEvent
                   {| ga_id := Undefined; ga_name := Undefined;
                      ga_price := Div Undefined 100; ga_quantity := 1 |} "2";
                 CallMutate {| formData := "a@b.com";
                               var_marketplace := "canonical-ua" |} ].
Proof.
  split; [discriminate |].
  apply submit_without_product. discriminate.
Defined.

End PurchaseModal.

(** ** Facts about the bundler entry map *)

Module EntryMapFacts.

Import Js EntryMap.

(** No bundle name is bound twice: the literal is a map. *)
Lemma bundle_names_distinct : NoDup (map fst entries).
Proof. apply (bool_decide_unpack _). by vm_compute. Qed.

(** C10 (counterexample). Not every entry is bound to one source file path
    or a list of source file paths: the list bound to "main" starts with
    "url-polyfill" and "url-search-params-polyfill", names of installed
    packages. *)
Lemma main_lists_package_names :
  ~ (forall name v, In (name, v) entries -> path_or_paths v = true).
Proof.
  intros Hall.
  specialize (Hall "main"
    (Arr [ Str "url-polyfill";
           Str "url-search-params-polyfill";
           Str "./static/js/src/polyfills.js";
           Str "./static/js/src/contextual-menu.js";
           Str "./static/js/src/dynamic-contact-form.js";
           Str "./static/js/src/core.js";
           Str "./static/js/src/navigation.js";
           Str "./static/js/src/form-validation.js";
           Str "./static/js/src/scratch.js" ])).
  assert (Hin : In ("main", snd (nth 5 entries ("main", Undefined))) entries).
  { cbn. tauto. }
  specialize (Hall Hin). vm_compute in Hall. discriminate.
Qed.

(** C10 (amended). Every entry binds its bundle name to one source file path
    or to a non-empty list of source file paths, except "main", whose list
    also holds package names: the requests of the map that are not source
    file paths are "url-polyfill" and "url-search-params-polyfill". *)
Theorem entries_are_paths_or_requests :
  Forall (fun e => request_or_requests (snd e) = true
                   /\ (fst e <> "main" -> path_or_paths (snd e) = true))
         entries
  /\ (List.filter (fun s => negb (is_source_file_path s))
                  (concat (map (fun e => requests (snd e)) entries))
      = ["url-polyfill"; "url-search-params-polyfill"]).
Proof.
  split; [| reflexivity].
  unfold entries, module_exports.
  repeat (apply Forall_cons; split;
          [split; [reflexivity | first [intros _; reflexivity | intros Hne; by destruct Hne]] |]).
  apply Forall_nil. done.
Qed.

(** X14. Reading a bundle name off [module.exports] gives the value the
    entry lists: no later property of the same name shadows it. *)
Theorem entry_lookup_by_name (name : string) (v : Value) :
  In (name, v) entries -> module_exports ?. name = v.
Proof.
  intros Hin.
  unfold entries, module_exports in Hin.
  repeat (destruct Hin as [Hin | Hin]; [by injection Hin as <- <- |]).
  destruct Hin.
Qed.

Lemma entry_lookup_by_name_witness :
  In ("cve", Str "./static/js/src/cve/cve.js") entries
  /\ module_exports ?. "cve" = Str "./static/js/src/cve/cve.js".
Proof.
  assert (Hin : In ("cve", Str "./static/js/src/cve/cve.js") entries).
  { unfold entries, module_exports. do 13 right. by left. }
  split; [exact Hin | exact (entry_lookup_by_name _ _ Hin)].
Defined.

(** X15. No request is listed twice, within an entry or across entries:
    every source file and package goes into exactly one bundle. *)
Theorem no_request_in_two_bundles :
  NoDup (concat (map (fun e => requests (snd e)) entries)).
Proof. apply (bool_decide_unpack _). by vm_compute. Qed.

End EntryMapFacts.
